(** * Superstore sales dashboard (project21.py): a shallow embedding

    The script loads a CSV with pandas, filters it by two multiselect
    widgets, computes three KPIs and two grouped aggregates and renders
    them with Streamlit.  Streamlit's page is modelled as the list of
    elements it emits, [st.stop()] as the end of the script run, and an
    uncaught exception as an exception element followed by the end of the
    run.

    The currency cells are float64 numbers; a finite one is represented by
    its exact value in [Q].  The library computations the script delegates
    to pandas and numpy are inputs of the page ([Section Script]): the
    cell-wise date parser of [pd.to_datetime], [int(s.sum())] on a column
    (a float64 sum, which may raise) and [round(s.mean(), 2)].  Facts about
    the page therefore hold whatever these library functions compute. *)

From Stdlib Require Import List Bool Arith ZArith QArith Qround.
From Stdlib Require Import String Ascii Sorted Permutation Lia.
Import ListNotations.

Open Scope Q_scope.

(** ** Data model *)

(** A calendar date, the value of the parsed [Order Date] column. *)
Record date := mk_date { year : Z; month : Z; day : Z }.

(** A row as [pd.read_csv] returns it: [r_order_date] is the raw text of
    the cell, [None] for an empty (NaN) cell.  [r_index] is the pandas
    index label assigned by [read_csv]. *)
Record raw_row := mk_raw_row {
  r_index : nat;
  r_region : string;
  r_category : string;
  r_sub_category : string;
  r_order_date : option string;
  r_sales : Q;
  r_profit : Q }.

(** A row of the loaded dataframe, after [Order Date] became a datetime. *)
Record row := mk_row {
  index : nat;
  region : string;
  category : string;
  sub_category : string;
  order_date : date;
  sales : Q;
  profit : Q }.

Definition dataset := list row.

(** What [pd.read_csv(path, encoding="ISO-8859-1")] does: raise
    [FileNotFoundError], raise some other exception, or return a frame
    with its column names and rows. *)
Inductive read_result :=
| RFileNotFound
| RError (msg : string)
| RTable (columns : list string) (rows : list raw_row).

(** ** Date parsing with format '%m/%d/%Y'

    pandas' [array_strptime] matches the whole cell against the regular
    expression of the format, built from the same patterns as CPython's
    [_strptime]:
    - [%m] is [1[0-2]|0[1-9]|[1-9]],
    - [%d] is [3[01]|[12]\d|0[1-9]|[1-9]| [1-9]],
    - [%Y] is [\d\d\d\d],
    then builds the date, which must exist and (pandas 2, nanosecond
    resolution) lie between 1677-09-22 and 2262-04-11.  Anything else is
    NaT under [errors='coerce'].  No pattern matches '/', so the match
    splits the cell at its two slashes. *)

Definition digit_val (c : ascii) : option Z :=
  let n := nat_of_ascii c in
  if (48 <=? n)%nat && (n <=? 57)%nat then Some (Z.of_nat (n - 48)) else None.

(** [%m]. *)
Definition month_field (s : string) : option Z :=
  match s with
  | String a EmptyString =>
      match digit_val a with
      | Some m => if (1 <=? m)%Z then Some m else None
      | None => None
      end
  | String a (String b EmptyString) =>
      match digit_val a, digit_val b with
      | Some x, Some y =>
          if (x =? 0)%Z then (if (1 <=? y)%Z then Some y else None)
          else if (x =? 1)%Z then (if (y <=? 2)%Z then Some (10 + y)%Z else None)
          else None
      | _, _ => None
      end
  | _ => None
  end.

(** [%d]. *)
Definition day_field (s : string) : option Z :=
  match s with
  | String a EmptyString =>
      match digit_val a with
      | Some d => if (1 <=? d)%Z then Some d else None
      | None => None
      end
  | String a (String b EmptyString) =>
      if Ascii.eqb a " "%char then
        match digit_val b with
        | Some d => if (1 <=? d)%Z then Some d else None
        | None => None
        end
      else
        match digit_val a, digit_val b with
        | Some x, Some y =>
            if (x =? 0)%Z then (if (1 <=? y)%Z then Some y else None)
            else if (x =? 1)%Z || (x =? 2)%Z then Some (10 * x + y)%Z
            else if (x =? 3)%Z then (if (y <=? 1)%Z then Some (30 + y)%Z else None)
            else None
        | _, _ => None
        end
  | _ => None
  end.

(** [%Y]. *)
Definition year_field (s : string) : option Z :=
  match s with
  | String a (String b (String c (String d EmptyString))) =>
      match digit_val a, digit_val b, digit_val c, digit_val d with
      | Some w, Some x, Some y, Some z => Some (1000 * w + 100 * x + 10 * y + z)%Z
      | _, _, _, _ => None
      end
  | _ => None
  end.

(** Split on '/'. *)
Fixpoint split_slash (s : string) : list string :=
  match s with
  | EmptyString => [EmptyString]
  | String c s' =>
      match split_slash s' with
      | [] => [String c EmptyString]
      | w :: ws => if Ascii.eqb c "/" then EmptyString :: w :: ws
                   else String c w :: ws
      end
  end.

Definition leap (y : Z) : bool :=
  (Z.eqb (y mod 4) 0 && negb (Z.eqb (y mod 100) 0)) || Z.eqb (y mod 400) 0.

Definition days_in_month (y m : Z) : Z :=
  if Z.eqb m 2 then (if leap y then 29 else 28)
  else if Z.eqb m 4 || Z.eqb m 6 || Z.eqb m 9 || Z.eqb m 11 then 30
  else 31.

(** Lexicographic order on (year, month, day). *)
Definition date_le (y1 m1 d1 y2 m2 d2 : Z) : bool :=
  (y1 <? y2)%Z || ((y1 =? y2)%Z && ((m1 <? m2)%Z || ((m1 =? m2)%Z && (d1 <=? d2)%Z))).

(** The date exists ([datetime] needs a year of at least 1) and is a
    nanosecond [Timestamp]. *)
Definition valid_date (y m d : Z) : bool :=
  (1 <=? y)%Z && (d <=? days_in_month y m)%Z &&
  date_le 1677 9 22 y m d && date_le y m d 2262 4 11.

Definition parse_mdY (s : string) : option date :=
  match split_slash s with
  | [ms; ds; ys] =>
      match month_field ms, day_field ds, year_field ys with
      | Some m, Some d, Some y =>
          if valid_date y m d then Some (mk_date y m d) else None
      | _, _, _ => None
      end
  | _ => None
  end.

(** ** Streamlit elements and the script monad *)

(** The elements the script emits, in page order.  A chart is identified
    by the view it is built from; its values are pandas' float64 group
    sums of that view. *)
Inductive element :=
| EPageConfig
| EError (msg : string)
| EMarkdown (text : string)
| ESidebarHeader (text : string)
| EMultiselect (label : string) (options selected : list string)
| EWarning (msg : string)
| ETitle (text : string)
| EMetric (label : string) (value : option Q)
| EHeader (text : string)
| EBarChart (view : list row)
| EPieChart (view : list row)
| EExpander (label : string)
| EDataframe (rows : list row)
| EException (msg : string).

(** One script run: the elements emitted so far are threaded as state;
    [None] is a run that ended early ([st.stop()] or an exception). *)
Definition St (A : Type) := list element -> list element * option A.

Definition ret {A} (a : A) : St A := fun out => (out, Some a).

Definition bind {A B} (m : St A) (k : A -> St B) : St B :=
  fun out => match m out with
             | (out', Some a) => k a out'
             | (out', None) => (out', None)
             end.

Notation "x <- m ;; k" := (bind m (fun x => k))
  (at level 61, m at next level, right associativity).
Notation "m ;;; k" := (bind m (fun _ => k))
  (at level 61, right associativity).

Definition emit (e : element) : St unit := fun out => (out ++ [e], Some tt).

Definition st_stop {A} : St A := fun out => (out, None).

(** An uncaught exception: Streamlit shows it and the run ends. *)
Definition raise {A} (msg : string) : St A := emit (EException msg) ;;; st_stop.

Definition key_error_msg (col : string) : string := ("KeyError: '" ++ col ++ "'")%string.

(** [df[col]] on a frame without that column. *)
Definition key_error {A} (col : string) : St A := raise (key_error_msg col).

Definition run (m : St unit) : list element * bool :=
  let (out, r) := m [] in (out, match r with Some _ => true | None => false end).

(** ** Data loading ([load_data]) *)

Section Loader.

(** The parser of the [Order Date] cells ([pd.to_datetime(...,
    format='%m/%d/%Y', errors='coerce')] on one cell; [None] is NaT). *)
Variable to_date : string -> option date.

Definition coerce_date (r : raw_row) : option date :=
  match r_order_date r with Some s => to_date s | None => None end.

Definition with_date (r : raw_row) (d : date) : row :=
  mk_row (r_index r) (r_region r) (r_category r) (r_sub_category r) d
         (r_sales r) (r_profit r).

(** [df['Order Date'] = pd.to_datetime(...)] then
    [df.dropna(subset=['Order Date'])]. *)
Fixpoint dropna_dates (rows : list raw_row) : dataset :=
  match rows with
  | [] => []
  | r :: rs =>
      match coerce_date r with
      | Some d => with_date r d :: dropna_dates rs
      | None => dropna_dates rs
      end
  end.

Definition load_error_prefix := "An error occurred while loading the data: "%string.

Definition not_found_msg (path : string) : string :=
  ("Error: The file '" ++ path ++
   "' was not found. Please make sure it is in the same folder as the script.")%string.

(** [load_data(path)]: the [try] block and its two handlers.  A frame
    without an [Order Date] column raises [KeyError('Order Date')], which
    the generic handler reports.  The frame keeps its column names. *)
Definition load_data (path : string) (rd : read_result)
    : St (option (list string * dataset)) :=
  match rd with
  | RFileNotFound => emit (EError (not_found_msg path)) ;;; ret None
  | RError e => emit (EError (load_error_prefix ++ e)) ;;; ret None
  | RTable cols rows =>
      if existsb (String.eqb "Order Date") cols
      then ret (Some (cols, dropna_dates rows))
      else emit (EError (load_error_prefix ++ "'Order Date'")) ;;; ret None
  end.

End Loader.

(** ** Filter engine *)

Definition mem (x : string) (l : list string) : bool := existsb (String.eqb x) l.

(** [Series.unique()]: distinct values in order of first appearance. *)
Fixpoint unique_acc (seen : list string) (l : list string) : list string :=
  match l with
  | [] => []
  | x :: xs => if mem x seen then unique_acc seen xs
               else x :: unique_acc (x :: seen) xs
  end.

Definition unique (l : list string) : list string := unique_acc [] l.

(** [df.query("Region == @region & Category == @category")]: with a list
    on the right-hand side, [==] is [isin]. *)
Definition query (df : dataset) (sel_region sel_category : list string) : dataset :=
  filter (fun r => mem (region r) sel_region && mem (category r) sel_category) df.

(** The state the user left in the two multiselect widgets; [None] before
    any interaction, when the widget shows its default. *)
Record widget_state := mk_widget_state {
  ws_region : option (list string);
  ws_category : option (list string) }.

(** The value a multiselect returns: the user's choice, else its default. *)
Definition resolve (state : option (list string)) (default : list string) : list string :=
  match state with Some s => s | None => default end.

Definition multiselect (label : string) (options default : list string)
    (state : option (list string)) : St (list string) :=
  let sel := resolve state default in
  emit (EMultiselect label options sel) ;;; ret sel.

(** ** Chart builders *)









(** ** The page (the script top to bottom) *)

Definition data_path := "superstore_sales.csv"%string.

(** The injected dark-mode stylesheet (its text is immaterial here). *)
Definition dark_css := "<style> .main, .st-sidebar, h1, h2, .stMetric </style>"%string.

Definition empty_warning :=
  "No data available for the selected filters. Please adjust your selection."%string.

(** The title, an emoji (four UTF-8 bytes) and a space before the text. *)
Definition dashboard_title := "🛒 Superstore Sales Dashboard"%string.

Definition has_col (col : string) (cols : list string) : bool :=
  existsb (String.eqb col) cols.

Section Script.

(** The date parser of [load_data] (see [Loader]). *)
Variable to_date : string -> option date.

(** [int(col.sum())] for a float64 column: the integer, or the exception
    [int] raises on a NaN or infinite sum. *)
Variable int_sum : list Q -> Z + string.

(** [round(col.mean(), 2)]; [None] is NaN. *)
Variable round_mean : list Q -> option Q.

(** Everything after the empty-view check (lines 94 to 161), for the
    frame's columns [cols] and the filtered view [v]. *)
Definition main_layout (cols : list string) (v : dataset) : St unit :=
  emit (ETitle dashboard_title) ;;;
  emit (EMarkdown "##") ;;;
  (if negb (has_col "Sales" cols) then key_error "Sales" else
   match int_sum (map sales v) with
   | inr e => raise e
   | inl total_sales =>
       (if negb (has_col "Profit" cols) then key_error "Profit" else
        match int_sum (map profit v) with
        | inr e => raise e
        | inl total_profit =>
            let average_sale := round_mean (map sales v) in
            emit (EMetric "Total Sales" (Some (inject_Z total_sales))) ;;;
            emit (EMetric "Total Profit" (Some (inject_Z total_profit))) ;;;
            emit (EMetric "Average Sale Value" average_sale) ;;;
            emit (EMarkdown "---") ;;;
            emit (EHeader "Charts & Analysis") ;;;
            (if negb (has_col "Sub-Category" cols) then key_error "Sub-Category" else
             emit (EBarChart v) ;;;
             emit (EPieChart v) ;;;
             emit (EExpander "View Raw Data Table") ;;;
             emit (EDataframe v))
        end)
   end).

(** One run of project21.py, given what [read_csv] does with the file and
    the state of the two widgets. *)
Definition page (rd : read_result) (ws : widget_state) : St unit :=
  emit EPageConfig ;;;
  odf <- load_data to_date data_path rd ;;
  match odf with
  | None => st_stop
  | Some (cols, df) =>
      emit (EMarkdown dark_css) ;;;
      emit (ESidebarHeader "Dashboard Filters") ;;;
      (if negb (has_col "Region" cols) then key_error "Region" else
       sel_region <- multiselect "Select Region:" (unique (map region df))
                       (unique (map region df)) (ws_region ws) ;;
       (if negb (has_col "Category" cols) then key_error "Category" else
        sel_category <- multiselect "Select Category:" (unique (map category df))
                          (unique (map category df)) (ws_category ws) ;;
        let df_selection := query df sel_region sel_category in
        match df_selection with
        | [] => emit (EWarning empty_warning) ;;; st_stop
        | _ => main_layout cols df_selection
        end))
  end.

End Script.

(** The filtered view the page computes from the widget states. *)
Definition selected_view (df : dataset) (ws : widget_state) : dataset :=
  query df (resolve (ws_region ws) (unique (map region df)))
           (resolve (ws_category ws) (unique (map category df))).

(** What the page shows up to the two filter widgets, once [df] is loaded. *)
Definition sidebar_elements (df : dataset) (ws : widget_state) : list element :=
  [EPageConfig; EMarkdown dark_css; ESidebarHeader "Dashboard Filters";
   EMultiselect "Select Region:" (unique (map region df))
     (resolve (ws_region ws) (unique (map region df)));
   EMultiselect "Select Category:" (unique (map category df))
     (resolve (ws_category ws) (unique (map category df)))]%string.

(** The elements of a completed main layout, for the KPI values
    [total_sales], [total_profit], [average_sale] and the view [v]. *)
Definition main_elements (total_sales total_profit : Z) (average_sale : option Q)
    (v : dataset) : list element :=
  [ETitle dashboard_title; EMarkdown "##";
   EMetric "Total Sales" (Some (inject_Z total_sales));
   EMetric "Total Profit" (Some (inject_Z total_profit));
   EMetric "Average Sale Value" average_sale;
   EMarkdown "---"; EHeader "Charts & Analysis";
   EBarChart v; EPieChart v;
   EExpander "View Raw Data Table"; EDataframe v]%string.

(** The columns the script reads. *)
Definition script_columns : list string :=
  ["Order Date"; "Region"; "Category"; "Sales"; "Profit"; "Sub-Category"]%string.

(** Elements that only the part after the empty-view check produces. *)
Definition is_main_output (e : element) : bool :=
  match e with
  | ETitle _ | EMetric _ _ | EHeader _ | EBarChart _ | EPieChart _
  | EExpander _ | EDataframe _ => true
  | _ => false
  end.

Definition is_filter_widget (e : element) : bool :=
  match e with EMultiselect _ _ _ => true | _ => false end.

Definition is_error (e : element) : bool :=
  match e with EError _ => true | _ => false end.

(** ** The scenario of the spec *)

Definition scen_rows : list raw_row :=
  [ mk_raw_row 0 "East" "Furniture" "Chairs" (Some "01/01/2020"%string) 100 10;
    mk_raw_row 1 "West" "Office" "Paper" (Some "2/ 2/2020"%string) 50 5;
    mk_raw_row 2 "West" "Office" "Paper" (Some "02/30/2020"%string) 70 7 ].

Definition scen_read : read_result :=
  RTable ["Region"; "Category"; "Sub-Category"; "Order Date"; "Sales"; "Profit"]%string
         scen_rows.

Definition scen_df : dataset := dropna_dates parse_mdY scen_rows.

(** Library results used to run the examples.  The scenario's currency
    values are small integers, whose float64 sums and means are exact. *)
Definition scen_int_sum (l : list Q) : Z + string := inl (Qfloor (fold_right Qplus 0 l)).

Definition scen_round_mean (l : list Q) : option Q :=
  match l with
  | [] => None
  | _ => Some (Qred (fold_right Qplus 0 l / inject_Z (Z.of_nat (List.length l))))
  end.

Definition scen_page := page parse_mdY scen_int_sum scen_round_mean.

Example scen_dates :
  parse_mdY "01/01/2020" = Some (mk_date 2020 1 1) /\
  parse_mdY "2/ 2/2020" = Some (mk_date 2020 2 2) /\ parse_mdY " 2/02/2020" = None /\
  parse_mdY "2/29/2020" = Some (mk_date 2020 2 29) /\
  parse_mdY "02/30/2020" = None /\ parse_mdY "2/29/2021" = None /\
  parse_mdY "13/01/2020" = None /\ parse_mdY "1/1/20" = None /\
  parse_mdY "00/10/2020" = None /\ parse_mdY "01/01/1500" = None /\
  parse_mdY "1/1/2020 " = None.
Proof. vm_compute. repeat split. Qed.

Example scen_loaded : List.length scen_df = 2%nat.
Proof. vm_compute. reflexivity. Qed.

Example scen_no_region :
  fst (run (scen_page scen_read (mk_widget_state (Some []) None))) =
  [EPageConfig; EMarkdown dark_css; ESidebarHeader "Dashboard Filters";
   EMultiselect "Select Region:" ["East"; "West"] [];
   EMultiselect "Select Category:" ["Furniture"; "Office"] ["Furniture"; "Office"];
   EWarning empty_warning]%string.
Proof. vm_compute. reflexivity. Qed.

Example scen_default_metrics :
  run (scen_page scen_read (mk_widget_state None None)) =
  (sidebar_elements scen_df (mk_widget_state None None) ++
   main_elements 150 15 (Some 75) scen_df, true).
Proof. vm_compute. reflexivity. Qed.

Example scen_missing_sales :
  run (scen_page (RTable ["Region"; "Category"; "Order Date"]%string scen_rows)
                 (mk_widget_state None None)) =
  (sidebar_elements scen_df (mk_widget_state None None) ++
   [ETitle dashboard_title; EMarkdown "##"; EException "KeyError: 'Sales'"]%string, false).
Proof. vm_compute. reflexivity. Qed.

(** ** Auxiliary lemmas *)

(** Order-preserving sublists. *)
Inductive subseq {A : Type} : list A -> list A -> Prop :=
| subseq_nil : subseq [] []
| subseq_skip x l1 l2 : subseq l1 l2 -> subseq l1 (x :: l2)
| subseq_take x l1 l2 : subseq l1 l2 -> subseq (x :: l1) (x :: l2).

Lemma mem_In (x : string) (l : list string) : mem x l = true <-> In x l.
Proof.
  unfold mem. rewrite existsb_exists. split.
  - intros [y [Hy Heq]]. apply String.eqb_eq in Heq. now subst.
  - intros H. exists x. split; [exact H | apply String.eqb_refl].
Qed.

Lemma unique_acc_complete (l seen : list string) (x : string) :
  In x l -> In x seen \/ In x (unique_acc seen l).
Proof.
  revert seen. induction l as [|y l IH]; intros seen Hin; [destruct Hin|].
  simpl. destruct (mem y seen) eqn:Hm.
  - destruct Hin as [<-|Hin].
    + left. now apply mem_In.
    + now apply IH.
  - destruct Hin as [<-|Hin].
    + right. now left.
    + destruct (IH (y :: seen) Hin) as [[<-|H]|H]; simpl; auto.
Qed.

Lemma unique_complete (l : list string) (x : string) : In x l -> In x (unique l).
Proof.
  intros H. destruct (unique_acc_complete l [] x H) as [[]|H']. exact H'.
Qed.

Lemma filter_all_true {A} (f : A -> bool) (l : list A) :
  (forall x, In x l -> f x = true) -> filter f l = l.
Proof.
  induction l as [|x l IH]; intros H; simpl; [reflexivity|].
  rewrite (H x (or_introl eq_refl)). f_equal. apply IH. intros y Hy. apply H. now right.
Qed.

Lemma filter_subseq {A} (f : A -> bool) (l : list A) : subseq (filter f l) l.
Proof.
  induction l as [|x l IH]; simpl; [constructor|].
  destruct (f x); constructor; exact IH.
Qed.

Lemma subseq_incl {A} (l1 l2 : list A) : subseq l1 l2 -> incl l1 l2.
Proof.
  induction 1; intros y Hy; simpl in *; auto. destruct Hy; auto.
Qed.

Lemma subseq_NoDup_map {A B} (f : A -> B) (l1 l2 : list A) :
  subseq l1 l2 -> NoDup (map f l2) -> NoDup (map f l1).
Proof.
  induction 1; simpl; intros Hnd; auto.
  - inversion Hnd; auto.
  - inversion Hnd as [|? ? Hnotin Hnd']; subst. constructor; auto.
    intros Hin. apply Hnotin. apply in_map_iff in Hin as [y [Hy Hiny]].
    apply in_map_iff. exists y. split; [exact Hy|]. now apply (subseq_incl l1 l2).
Qed.

(** ** Filter engine *)

(** C2: a row is in the filtered view iff it is a row of the dataset, its
    Region is one of the selected regions and its Category one of the
    selected categories. *)
Theorem query_membership (df : dataset) (sel_region sel_category : list string) (r : row) :
  In r (query df sel_region sel_category) <->
  In r df /\ In (region r) sel_region /\ In (category r) sel_category.
Proof.
  unfold query. rewrite filter_In, andb_true_iff, !mem_In. tauto.
Qed.

(** C3: the default selection (all distinct regions, all distinct
    categories, which the page uses before any interaction) keeps the
    whole dataset. *)
Theorem query_default_selection (df : dataset) :
  query df (unique (map region df)) (unique (map category df)) = df.
Proof.
  unfold query. apply filter_all_true. intros r Hr.
  apply andb_true_iff. split; apply mem_In; apply unique_complete; now apply in_map.
Qed.

(** C10: the filtered view is an order-preserving subsequence of the
    dataset, with rows unchanged; so distinct index labels stay distinct. *)
Theorem query_subsequence (df : dataset) (sel_region sel_category : list string) :
  subseq (query df sel_region sel_category) df /\
  (NoDup (map index df) -> NoDup (map index (query df sel_region sel_category))).
Proof.
  assert (Hs : subseq (query df sel_region sel_category) df) by apply filter_subseq.
  split; [exact Hs|]. intros Hnd. exact (subseq_NoDup_map index _ _ Hs Hnd).
Qed.

(** ** Data loader *)

Section LoaderFacts.

Variable to_date : string -> option date.

Definition date_parses (raw : raw_row) : bool :=
  match coerce_date to_date raw with Some _ => true | None => false end.

Definition parsed_from (raw : raw_row) (r : row) : Prop :=
  coerce_date to_date raw = Some (order_date r) /\ r = with_date raw (order_date r).

Lemma dropna_dates_exact (rows : list raw_row) :
  Forall2 parsed_from (filter date_parses rows) (dropna_dates to_date rows).
Proof.
  induction rows as [|raw rows IH]; simpl; [constructor|].
  unfold date_parses at 1. destruct (coerce_date to_date raw) as [d|] eqn:Hd.
  - constructor; [|exact IH]. split; simpl; [exact Hd | reflexivity].
  - exact IH.
Qed.

Lemma dropna_dates_length (rows : list raw_row) :
  List.length (dropna_dates to_date rows) =
  (List.length rows - List.length (filter (fun raw => negb (date_parses raw)) rows))%nat.
Proof.
  rewrite <- (filter_length date_parses rows).
  rewrite <- (Forall2_length (dropna_dates_exact rows)). lia.
Qed.

Lemma dropna_dates_parsed (rows : list raw_row) (r : row) :
  In r (dropna_dates to_date rows) -> exists raw, In raw rows /\ parsed_from raw r.
Proof.
  intros Hin. pose proof (dropna_dates_exact rows) as HF.
  revert HF Hin. generalize (dropna_dates to_date rows) as ds.
  generalize (subseq_incl _ _ (filter_subseq date_parses rows)).
  generalize (filter date_parses rows) as good.
  intros good Hsub ds HF. induction HF as [|raw r' good' ds' Hp HF IH]; intros Hin; [destruct Hin|].
  destruct Hin as [<-|Hin].
  - exists raw. split; [|exact Hp]. apply Hsub. now left.
  - apply IH; [|exact Hin]. intros y Hy. apply Hsub. now right.
Qed.

End LoaderFacts.

(** C4: when [load_data] produces a dataset, it emits nothing and the
    dataset consists, in order, of exactly the input rows whose Order Date
    cell parses (under the cell parser of [pd.to_datetime] with format
    '%m/%d/%Y', whatever it accepts), each carrying its parsed date; its
    size is the number of input rows minus the number of rows whose date
    does not parse. *)
Theorem load_data_parsed_rows (to_date : string -> option date) (path : string)
    (rd : read_result) (out0 out : list element) (cols : list string) (ds : dataset) :
  load_data to_date path rd out0 = (out, Some (Some (cols, ds))) ->
  exists rows,
    rd = RTable cols rows /\ out = out0 /\
    (forall r, In r ds -> exists raw, In raw rows /\ parsed_from to_date raw r) /\
    Forall2 (parsed_from to_date) (filter (date_parses to_date) rows) ds /\
    List.length ds =
      (List.length rows - List.length (filter (fun raw => negb (date_parses to_date raw)) rows))%nat.
Proof.
  intros H. unfold load_data in H.
  destruct rd as [|e|cols' rows]; cbv [bind emit ret] in H; [inversion H|inversion H|].
  destruct (existsb (String.eqb "Order Date") cols'); inversion H; subst.
  exists rows. repeat split.
  - apply dropna_dates_parsed.
  - apply dropna_dates_exact.
  - apply dropna_dates_length.
Qed.

Lemma load_data_parsed_rows_witness :
  load_data parse_mdY data_path scen_read [] =
    ([], Some (Some (["Region"; "Category"; "Sub-Category"; "Order Date"; "Sales"; "Profit"]%string,
                     scen_df))) /\
  exists rows,
    scen_read = RTable ["Region"; "Category"; "Sub-Category"; "Order Date"; "Sales"; "Profit"]%string rows /\
    @nil element = [] /\
    (forall r, In r scen_df -> exists raw, In raw rows /\ parsed_from parse_mdY raw r) /\
    Forall2 (parsed_from parse_mdY) (filter (date_parses parse_mdY) rows) scen_df /\
    List.length scen_df =
      (List.length rows - List.length (filter (fun raw => negb (date_parses parse_mdY raw)) rows))%nat.
Proof.
  assert (H : load_data parse_mdY data_path scen_read [] =
    ([], Some (Some (["Region"; "Category"; "Sub-Category"; "Order Date"; "Sales"; "Profit"]%string,
                     scen_df)))) by reflexivity.
  split; [exact H|]. exact (load_data_parsed_rows parse_mdY data_path scen_read [] [] _ scen_df H).
Defined.

(** ** Runs of the page *)

Lemma bind_emit {A} (e : element) (k : St A) (out : list element) :
  (emit e ;;; k) out = k (out ++ [e]).
Proof. reflexivity. Qed.

Section PageRuns.

Variable to_date : string -> option date.
Variable int_sum : list Q -> Z + string.
Variable round_mean : list Q -> option Q.

(** The run of a frame that has the [Order Date], [Region] and [Category]
    columns: the sidebar, then the warning or the main layout. *)
Lemma page_table_run (cols : list string) (rows : list raw_row) (ws : widget_state) :
  has_col "Order Date" cols = true -> has_col "Region" cols = true ->
  has_col "Category" cols = true ->
  run (page to_date int_sum round_mean (RTable cols rows) ws) =
    match selected_view (dropna_dates to_date rows) ws with
    | [] => (sidebar_elements (dropna_dates to_date rows) ws ++ [EWarning empty_warning], false)
    | v => run (fun out => main_layout int_sum round_mean cols v
                             (sidebar_elements (dropna_dates to_date rows) ws ++ out))
    end.
Proof.
  intros Hd Hr Hc. unfold run, page, load_data, multiselect.
  unfold has_col in Hd, Hr, Hc. rewrite Hd. cbv [bind emit ret has_col].
  rewrite Hr, Hc. cbn [negb].
  unfold selected_view. destruct (query _ _ _); reflexivity.
Qed.

(** The main layout when every column is present and both sums convert. *)
Lemma main_layout_complete (cols : list string) (v : dataset) (ts tp : Z)
    (out : list element) :
  has_col "Sales" cols = true -> has_col "Profit" cols = true ->
  has_col "Sub-Category" cols = true ->
  int_sum (map sales v) = inl ts -> int_sum (map profit v) = inl tp ->
  main_layout int_sum round_mean cols v out =
    (out ++ main_elements ts tp (round_mean (map sales v)) v, Some tt).
Proof.
  intros Hs Hp Hsc Hts Htp. unfold main_layout.
  cbv [bind emit ret]. rewrite Hs, Hp, Hsc, Hts, Htp. cbn [negb].
  unfold main_elements. now rewrite <- !app_assoc.
Qed.

Lemma script_columns_has (cols : list string) :
  forallb (fun c => has_col c cols) script_columns = true ->
  has_col "Order Date" cols = true /\ has_col "Region" cols = true /\
  has_col "Category" cols = true /\ has_col "Sales" cols = true /\
  has_col "Profit" cols = true /\ has_col "Sub-Category" cols = true.
Proof.
  unfold script_columns. cbn [forallb]. rewrite !andb_true_iff. tauto.
Qed.

Lemma raise_no_error {A} (msg : string) (out : list element) :
  forallb (fun e => negb (is_error e)) out = true ->
  forallb (fun e => negb (is_error e)) (fst (@raise A msg out)) = true.
Proof.
  intros H. cbv [raise bind emit st_stop]. simpl fst.
  rewrite forallb_app, H. reflexivity.
Qed.

Lemma main_layout_no_error (cols : list string) (v : dataset) (out : list element) :
  forallb (fun e => negb (is_error e)) out = true ->
  forallb (fun e => negb (is_error e)) (fst (main_layout int_sum round_mean cols v out)) = true.
Proof.
  intros H. unfold main_layout, key_error.
  cbv [bind emit ret].
  destruct (has_col "Sales" cols); cbn [negb];
    [|apply raise_no_error; rewrite !forallb_app, H; reflexivity].
  destruct (int_sum (map sales v)) as [ts|e];
    [|apply raise_no_error; rewrite !forallb_app, H; reflexivity].
  destruct (has_col "Profit" cols); cbn [negb];
    [|apply raise_no_error; rewrite !forallb_app, H; reflexivity].
  destruct (int_sum (map profit v)) as [tp|e];
    [|apply raise_no_error; rewrite !forallb_app, H; reflexivity].
  destruct (has_col "Sub-Category" cols); cbn [negb];
    [simpl fst; rewrite !forallb_app, H; reflexivity|].
  apply raise_no_error; rewrite !forallb_app, H; reflexivity.
Qed.

Lemma run_fst (m : St unit) : fst (run m) = fst (m []).
Proof. unfold run. now destruct (m []). Qed.

(** A frame with an [Order Date] column never produces an error element. *)
Lemma page_table_no_error (cols : list string) (rows : list raw_row) (ws : widget_state) :
  has_col "Order Date" cols = true ->
  forallb (fun e => negb (is_error e))
    (fst (run (page to_date int_sum round_mean (RTable cols rows) ws))) = true.
Proof.
  intros Hd. rewrite run_fst. unfold page, load_data, multiselect, key_error.
  unfold has_col in Hd. rewrite Hd. cbv [bind emit ret].
  destruct (has_col "Region" cols); cbn [negb];
    [|apply raise_no_error; reflexivity].
  destruct (has_col "Category" cols); cbn [negb];
    [|apply raise_no_error; reflexivity].
  destruct (query _ _ _) as [|r v];
    [reflexivity|].
  match goal with
  | |- context [main_layout int_sum round_mean cols ?w ?o] =>
      pose proof (main_layout_no_error cols w o eq_refl) as Hm;
      destruct (main_layout int_sum round_mean cols w o) as [out' res]
  end.
  exact Hm.
Qed.

End PageRuns.

(** C9: a missing file shows the not-found error and stops the run before
    the sidebar filters; any other read exception shows its message after
    the fixed prefix and stops as well.  Nothing else is emitted. *)
Theorem page_load_failure (to_date : string -> option date) (int_sum : list Q -> Z + string)
    (round_mean : list Q -> option Q) (ws : widget_state) :
  run (page to_date int_sum round_mean RFileNotFound ws) =
    ([EPageConfig; EError (not_found_msg data_path)], false) /\
  (forall msg, run (page to_date int_sum round_mean (RError msg) ws) =
     ([EPageConfig; EError (load_error_prefix ++ msg)], false)).
Proof. split; [|intros msg]; reflexivity. Qed.

(** C8: when a dataset is loaded (the frame has the [Order Date] column)
    and the filter widgets can be built (it has [Region] and [Category]),
    an empty filtered view makes the run show the sidebar, then the
    warning, and stop: no title, metric, chart or table is emitted, so the
    metrics are never computed. *)
Theorem page_empty_view_halts (to_date : string -> option date)
    (int_sum : list Q -> Z + string) (round_mean : list Q -> option Q)
    (cols : list string) (rows : list raw_row) (ws : widget_state) :
  existsb (String.eqb "Order Date") cols = true ->
  existsb (String.eqb "Region") cols = true ->
  existsb (String.eqb "Category") cols = true ->
  selected_view (dropna_dates to_date rows) ws = [] ->
  run (page to_date int_sum round_mean (RTable cols rows) ws) =
    (sidebar_elements (dropna_dates to_date rows) ws ++ [EWarning empty_warning], false) /\
  (forall e, In e (sidebar_elements (dropna_dates to_date rows) ws ++ [EWarning empty_warning]) ->
     is_main_output e = false).
Proof.
  intros Hd Hr Hc Hempty. split.
  - rewrite (page_table_run to_date int_sum round_mean cols rows ws Hd Hr Hc).
    now rewrite Hempty.
  - intros e He. unfold sidebar_elements in He. simpl in He.
    repeat destruct He as [<-|He]; try reflexivity. destruct He.
Qed.

Lemma page_empty_view_halts_witness :
  existsb (String.eqb "Order Date")
    ["Region"; "Category"; "Sub-Category"; "Order Date"; "Sales"; "Profit"]%string = true /\
  existsb (String.eqb "Region")
    ["Region"; "Category"; "Sub-Category"; "Order Date"; "Sales"; "Profit"]%string = true /\
  existsb (String.eqb "Category")
    ["Region"; "Category"; "Sub-Category"; "Order Date"; "Sales"; "Profit"]%string = true /\
  selected_view scen_df (mk_widget_state (Some []) None) = [] /\
  run (scen_page scen_read (mk_widget_state (Some []) None)) =
    (sidebar_elements scen_df (mk_widget_state (Some []) None) ++ [EWarning empty_warning],
     false).
Proof.
  assert (H1 : existsb (String.eqb "Order Date")
    ["Region"; "Category"; "Sub-Category"; "Order Date"; "Sales"; "Profit"]%string = true)
    by reflexivity.
  assert (H2 : existsb (String.eqb "Region")
    ["Region"; "Category"; "Sub-Category"; "Order Date"; "Sales"; "Profit"]%string = true)
    by reflexivity.
  assert (H3 : existsb (String.eqb "Category")
    ["Region"; "Category"; "Sub-Category"; "Order Date"; "Sales"; "Profit"]%string = true)
    by reflexivity.
  assert (H4 : selected_view scen_df (mk_widget_state (Some []) None) = []) by reflexivity.
  split; [exact H1|]. split; [exact H2|]. split; [exact H3|]. split; [exact H4|].
  exact (proj1 (page_empty_view_halts parse_mdY scen_int_sum scen_round_mean
                  _ scen_rows (mk_widget_state (Some []) None) H1 H2 H3 H4)).
Defined.

(** ** Chart builders *)








(** ** Further properties of the page *)

Lemma query_default_keeps_all (df : dataset) :
  query df (unique (map region df)) (unique (map category df)) = df.
Proof.
  apply filter_all_true. intros r Hr. apply andb_true_iff.
  split; apply mem_In, unique_complete, in_map; exact Hr.
Qed.

(** X1: when the frame has every column the script reads, the filtered
    view [v] is non-empty and [int] accepts both column sums, the run
    completes and shows, after the sidebar, the title, the three KPIs
    (the two converted sums and the rounded mean of Sales of [v]), the bar
    and pie charts built from [v], and [v] as the raw-data table. *)
Theorem page_full_render (to_date : string -> option date)
    (int_sum : list Q -> Z + string) (round_mean : list Q -> option Q)
    (cols : list string) (rows : list raw_row) (ws : widget_state) (ts tp : Z) :
  forallb (fun c => has_col c cols) script_columns = true ->
  selected_view (dropna_dates to_date rows) ws <> [] ->
  int_sum (map sales (selected_view (dropna_dates to_date rows) ws)) = inl ts ->
  int_sum (map profit (selected_view (dropna_dates to_date rows) ws)) = inl tp ->
  run (page to_date int_sum round_mean (RTable cols rows) ws) =
    (sidebar_elements (dropna_dates to_date rows) ws ++
     main_elements ts tp
       (round_mean (map sales (selected_view (dropna_dates to_date rows) ws)))
       (selected_view (dropna_dates to_date rows) ws), true).
Proof.
  intros Hcols Hne Hts Htp.
  destruct (script_columns_has cols Hcols) as (Hd & Hr & Hc & Hs & Hp & Hsc).
  rewrite (page_table_run to_date int_sum round_mean cols rows ws Hd Hr Hc).
  destruct (selected_view (dropna_dates to_date rows) ws) as [|r v] eqn:Hv;
    [contradiction|].
  unfold run. rewrite (main_layout_complete int_sum round_mean cols (r :: v) ts tp _
                         Hs Hp Hsc Hts Htp).
  now rewrite app_nil_r.
Qed.

Lemma page_full_render_witness :
  forallb (fun c => has_col c
    ["Region"; "Category"; "Sub-Category"; "Order Date"; "Sales"; "Profit"]%string)
    script_columns = true /\
  selected_view scen_df (mk_widget_state None None) <> [] /\
  run (scen_page scen_read (mk_widget_state None None)) =
    (sidebar_elements scen_df (mk_widget_state None None) ++
     main_elements 150 15 (Some 75) scen_df, true).
Proof.
  assert (H1 : forallb (fun c => has_col c
    ["Region"; "Category"; "Sub-Category"; "Order Date"; "Sales"; "Profit"]%string)
    script_columns = true) by reflexivity.
  assert (H2 : selected_view scen_df (mk_widget_state None None) <> []) by (vm_compute; discriminate).
  split; [exact H1|]. split; [exact H2|].
  exact (page_full_render parse_mdY scen_int_sum scen_round_mean _ scen_rows
           (mk_widget_state None None) 150 15 H1 H2 eq_refl eq_refl).
Defined.

(** X2: a frame without an [Order Date] column is reported through the
    generic handler as [KeyError('Order Date')] and the run stops before
    the filters. *)
Theorem page_missing_date_column (to_date : string -> option date)
    (int_sum : list Q -> Z + string) (round_mean : list Q -> option Q)
    (cols : list string) (rows : list raw_row) (ws : widget_state) :
  existsb (String.eqb "Order Date") cols = false ->
  run (page to_date int_sum round_mean (RTable cols rows) ws) =
    ([EPageConfig; EError (load_error_prefix ++ "'Order Date'")], false).
Proof.
  intros Hcol. unfold run, page, load_data. rewrite Hcol. reflexivity.
Qed.

Lemma page_missing_date_column_witness :
  run (scen_page (RTable ["Region"; "Sales"]%string scen_rows) (mk_widget_state None None)) =
    ([EPageConfig; EError (load_error_prefix ++ "'Order Date'")], false).
Proof. apply page_missing_date_column. reflexivity. Defined.

(** X3: an error element appears only when loading failed: such a run
    stops, shows no filter widget, and the error is its last element. *)
Theorem page_error_only_on_load_failure (to_date : string -> option date)
    (int_sum : list Q -> Z + string) (round_mean : list Q -> option Q)
    (rd : read_result) (ws : widget_state) (msg : string) :
  In (EError msg) (fst (run (page to_date int_sum round_mean rd ws))) ->
  snd (run (page to_date int_sum round_mean rd ws)) = false /\
  (forall e, In e (fst (run (page to_date int_sum round_mean rd ws))) ->
     is_filter_widget e = false) /\
  exists pre, fst (run (page to_date int_sum round_mean rd ws)) = pre ++ [EError msg].
Proof.
  destruct rd as [|e|cols rows].
  - intros H. simpl in H |- *. destruct H as [H|[H|[]]]; [discriminate|].
    rewrite H. split; [reflexivity|]. split.
    + intros x [<-|[<-|[]]]; reflexivity.
    + exists [EPageConfig]. reflexivity.
  - intros H. simpl in H |- *. destruct H as [H|[H|[]]]; [discriminate|].
    rewrite H. split; [reflexivity|]. split.
    + intros x [<-|[<-|[]]]; reflexivity.
    + exists [EPageConfig]. reflexivity.
  - destruct (existsb (String.eqb "Order Date") cols) eqn:Hcol.
    + intros H. exfalso.
      pose proof (page_table_no_error to_date int_sum round_mean cols rows ws Hcol) as Hn.
      rewrite forallb_forall in Hn. specialize (Hn _ H). discriminate Hn.
    + rewrite (page_missing_date_column _ _ _ _ _ _ Hcol). simpl.
      intros [H|[H|[]]]; [discriminate|]. rewrite H. split; [reflexivity|]. split.
      * intros x [<-|[<-|[]]]; reflexivity.
      * exists [EPageConfig]. reflexivity.
Qed.

(** X4: on the first render (no widget touched yet) of a non-empty
    dataset whose frame has every column the script reads, when [int]
    accepts both column sums, the run completes, and the KPIs, charts and
    raw-data table are computed from the whole dataset. *)
Theorem page_first_render_unfiltered (to_date : string -> option date)
    (int_sum : list Q -> Z + string) (round_mean : list Q -> option Q)
    (cols : list string) (rows : list raw_row) (ts tp : Z) :
  forallb (fun c => has_col c cols) script_columns = true ->
  dropna_dates to_date rows <> [] ->
  int_sum (map sales (dropna_dates to_date rows)) = inl ts ->
  int_sum (map profit (dropna_dates to_date rows)) = inl tp ->
  run (page to_date int_sum round_mean (RTable cols rows) (mk_widget_state None None)) =
    (sidebar_elements (dropna_dates to_date rows) (mk_widget_state None None) ++
     main_elements ts tp (round_mean (map sales (dropna_dates to_date rows)))
       (dropna_dates to_date rows), true).
Proof.
  intros Hcols Hne Hts Htp.
  assert (Hv : selected_view (dropna_dates to_date rows) (mk_widget_state None None) =
               dropna_dates to_date rows).
  { unfold selected_view, resolve. simpl ws_region. simpl ws_category.
    apply query_default_keeps_all. }
  destruct (script_columns_has cols Hcols) as (Hd & Hr & Hc & Hs & Hp & Hsc).
  rewrite (page_table_run to_date int_sum round_mean cols rows _ Hd Hr Hc).
  rewrite Hv. destruct (dropna_dates to_date rows) as [|r v] eqn:Hdf; [contradiction|].
  unfold run. rewrite (main_layout_complete int_sum round_mean cols (r :: v) ts tp _
                         Hs Hp Hsc Hts Htp).
  now rewrite app_nil_r.
Qed.

Lemma page_first_render_unfiltered_witness :
  forallb (fun c => has_col c
    ["Region"; "Category"; "Sub-Category"; "Order Date"; "Sales"; "Profit"]%string)
    script_columns = true /\
  scen_df <> [] /\
  run (scen_page scen_read (mk_widget_state None None)) =
    (sidebar_elements scen_df (mk_widget_state None None) ++
     main_elements 150 15 (Some 75) scen_df, true).
Proof.
  assert (H1 : forallb (fun c => has_col c
    ["Region"; "Category"; "Sub-Category"; "Order Date"; "Sales"; "Profit"]%string)
    script_columns = true) by reflexivity.
  assert (H2 : scen_df <> []) by (vm_compute; discriminate).
  split; [exact H1|]. split; [exact H2|].
  exact (page_first_render_unfiltered parse_mdY scen_int_sum scen_round_mean _ scen_rows
           150 15 H1 H2 eq_refl eq_refl).
Defined.

(** X5: filtering twice with the same selection gives the same view. *)
Theorem query_idempotent (df : dataset) (sel_region sel_category : list string) :
  query (query df sel_region sel_category) sel_region sel_category =
  query df sel_region sel_category.
Proof.
  unfold query. induction df as [|r df IH]; simpl; [reflexivity|].
  destruct (mem (region r) sel_region && mem (category r) sel_category) eqn:E.
  - simpl. rewrite E. now f_equal.
  - exact IH.
Qed.

(** X6: when the filter widgets can be built (the frame has [Order Date],
    [Region] and [Category]), clearing either multiselect empties the
    view, so the run shows the warning and stops. *)
Theorem page_cleared_widget_halts (to_date : string -> option date)
    (int_sum : list Q -> Z + string) (round_mean : list Q -> option Q)
    (cols : list string) (rows : list raw_row) (ws : widget_state) :
  existsb (String.eqb "Order Date") cols = true ->
  existsb (String.eqb "Region") cols = true ->
  existsb (String.eqb "Category") cols = true ->
  ws_region ws = Some [] \/ ws_category ws = Some [] ->
  run (page to_date int_sum round_mean (RTable cols rows) ws) =
    (sidebar_elements (dropna_dates to_date rows) ws ++ [EWarning empty_warning], false).
Proof.
  intros Hd Hr Hc Hcl.
  rewrite (page_table_run to_date int_sum round_mean cols rows ws Hd Hr Hc).
  assert (Hv : selected_view (dropna_dates to_date rows) ws = []).
  { unfold selected_view, query. rewrite <- (filter_false (dropna_dates to_date rows)).
    apply filter_ext. intros r.
    destruct Hcl as [H|H]; rewrite H; simpl; [reflexivity|apply andb_false_r]. }
  now rewrite Hv.
Qed.

Lemma page_cleared_widget_halts_witness :
  run (scen_page scen_read (mk_widget_state None (Some []))) =
    (sidebar_elements scen_df (mk_widget_state None (Some [])) ++ [EWarning empty_warning],
     false).
Proof. apply page_cleared_widget_halts; [reflexivity|reflexivity|reflexivity|now right]. Defined.

(** ** [unique] *)

Lemma unique_acc_sound (l seen : list string) (x : string) :
  In x (unique_acc seen l) -> In x l.
Proof.
  revert seen. induction l as [|y l IH]; intros seen; simpl; [tauto|].
  destruct (mem y seen).
  - intros H. right. exact (IH _ H).
  - intros [<-|H]; [now left|]. right. exact (IH _ H).
Qed.

Lemma unique_acc_subseq (l seen : list string) : subseq (unique_acc seen l) l.
Proof.
  revert seen. induction l as [|y l IH]; intros seen; simpl; [constructor|].
  destruct (mem y seen); constructor; apply IH.
Qed.

Lemma unique_acc_nodup (l seen : list string) :
  NoDup (unique_acc seen l) /\ (forall x, In x (unique_acc seen l) -> ~ In x seen).
Proof.
  revert seen. induction l as [|y l IH]; intros seen; simpl.
  - split; [constructor | intros x []].
  - destruct (mem y seen) eqn:Hm; [apply IH|].
    destruct (IH (y :: seen)) as [Hnd Hfresh]. split.
    + constructor; [|exact Hnd]. intros Hy. apply (Hfresh y Hy). now left.
    + intros x [<-|Hx].
      * intros Hs. apply mem_In in Hs. congruence.
      * intros Hs. apply (Hfresh x Hx). now right.
Qed.

(** X7: the options of each multiselect ([Series.unique()]) list every
    value of the column exactly once, in an order taken from the column. *)
Theorem unique_options (l : list string) :
  NoDup (unique l) /\ (forall x, In x (unique l) <-> In x l) /\ subseq (unique l) l.
Proof.
  split; [apply unique_acc_nodup|]. split; [|apply unique_acc_subseq].
  intros x. split; [apply unique_acc_sound|apply unique_complete].
Qed.

(** ** Missing columns *)

(** X11: a frame with [Order Date] but without [Region] gets through
    [load_data]; [df['Region']] for the first multiselect then raises an
    uncaught [KeyError], after the sidebar header and before any widget. *)
Theorem page_missing_region (to_date : string -> option date)
    (int_sum : list Q -> Z + string) (round_mean : list Q -> option Q)
    (cols : list string) (rows : list raw_row) (ws : widget_state) :
  existsb (String.eqb "Order Date") cols = true ->
  existsb (String.eqb "Region") cols = false ->
  run (page to_date int_sum round_mean (RTable cols rows) ws) =
    ([EPageConfig; EMarkdown dark_css; ESidebarHeader "Dashboard Filters";
      EException (key_error_msg "Region")], false)%string.
Proof.
  intros Hd Hr. unfold run, page, load_data. rewrite Hd.
  cbv [bind emit ret has_col]. rewrite Hr. reflexivity.
Qed.

Lemma page_missing_region_witness :
  run (scen_page (RTable ["Order Date"; "Category"]%string scen_rows) (mk_widget_state None None)) =
    ([EPageConfig; EMarkdown dark_css; ESidebarHeader "Dashboard Filters";
      EException (key_error_msg "Region")], false)%string.
Proof. apply page_missing_region; reflexivity. Defined.

(** X12: a frame with [Order Date] and [Region] but without [Category]
    shows the Region multiselect, then [df['Category']] raises an uncaught
    [KeyError] and the run ends before the filter is applied. *)
Theorem page_missing_category (to_date : string -> option date)
    (int_sum : list Q -> Z + string) (round_mean : list Q -> option Q)
    (cols : list string) (rows : list raw_row) (ws : widget_state) :
  existsb (String.eqb "Order Date") cols = true ->
  existsb (String.eqb "Region") cols = true ->
  existsb (String.eqb "Category") cols = false ->
  run (page to_date int_sum round_mean (RTable cols rows) ws) =
    ([EPageConfig; EMarkdown dark_css; ESidebarHeader "Dashboard Filters";
      EMultiselect "Select Region:" (unique (map region (dropna_dates to_date rows)))
        (resolve (ws_region ws) (unique (map region (dropna_dates to_date rows))));
      EException (key_error_msg "Category")], false)%string.
Proof.
  intros Hd Hr Hc. unfold run, page, load_data, multiselect. rewrite Hd.
  cbv [bind emit ret has_col]. rewrite Hr, Hc. reflexivity.
Qed.

Lemma page_missing_category_witness :
  run (scen_page (RTable ["Order Date"; "Region"]%string scen_rows) (mk_widget_state None None)) =
    ([EPageConfig; EMarkdown dark_css; ESidebarHeader "Dashboard Filters";
      EMultiselect "Select Region:" ["East"; "West"] ["East"; "West"];
      EException (key_error_msg "Category")], false)%string.
Proof. apply page_missing_category; reflexivity. Defined.

(** X13: when the filtered view is non-empty but the frame has no [Sales]
    column, the run shows the title and its spacer, then
    [df_selection['Sales']] raises an uncaught [KeyError]: no KPI, chart or
    table is shown. *)
Theorem page_missing_sales (to_date : string -> option date)
    (int_sum : list Q -> Z + string) (round_mean : list Q -> option Q)
    (cols : list string) (rows : list raw_row) (ws : widget_state) :
  existsb (String.eqb "Order Date") cols = true ->
  existsb (String.eqb "Region") cols = true ->
  existsb (String.eqb "Category") cols = true ->
  existsb (String.eqb "Sales") cols = false ->
  selected_view (dropna_dates to_date rows) ws <> [] ->
  run (page to_date int_sum round_mean (RTable cols rows) ws) =
    (sidebar_elements (dropna_dates to_date rows) ws ++
     [ETitle dashboard_title; EMarkdown "##"; EException (key_error_msg "Sales")]%string, false).
Proof.
  intros Hd Hr Hc Hs Hne.
  rewrite (page_table_run to_date int_sum round_mean cols rows ws Hd Hr Hc).
  destruct (selected_view (dropna_dates to_date rows) ws) as [|r v]; [contradiction|].
  unfold run, main_layout, key_error, raise. cbv [bind emit ret st_stop has_col].
  rewrite Hs. cbn [negb]. rewrite app_nil_r, <- !app_assoc. reflexivity.
Qed.

Lemma page_missing_sales_witness :
  selected_view scen_df (mk_widget_state None None) <> [] /\
  run (scen_page (RTable ["Order Date"; "Region"; "Category"]%string scen_rows)
                 (mk_widget_state None None)) =
    (sidebar_elements scen_df (mk_widget_state None None) ++
     [ETitle dashboard_title; EMarkdown "##"; EException (key_error_msg "Sales")]%string, false).
Proof.
  assert (H : selected_view scen_df (mk_widget_state None None) <> []) by (vm_compute; discriminate).
  split; [exact H|].
  exact (page_missing_sales parse_mdY scen_int_sum scen_round_mean
           ["Order Date"; "Region"; "Category"]%string scen_rows _
           eq_refl eq_refl eq_refl eq_refl H).
Defined.

Lemma page_error_only_on_load_failure_witness :
  snd (run (scen_page RFileNotFound (mk_widget_state None None))) = false.
Proof.
  assert (H : In (EError (not_found_msg data_path))
                 (fst (run (scen_page RFileNotFound (mk_widget_state None None))))).
  { simpl. right. now left. }
  exact (proj1 (page_error_only_on_load_failure _ _ _ _ _ _ H)).
Defined.
